(** * crash-diagnostics: the kube_nodes_provider and crashd_config built-ins

    A shallow embedding of [starlark/kube_nodes_provider.go] and
    [starlark/crashd_config.go], and the properties of the provider
    resolution pipeline: alias folding of the search arguments, decoding of
    search results, extraction of the internal address, composition of the
    provider struct and the thread-local defaults. *)

From Stdlib Require Import String List.
From stdpp Require Import base option gmap strings list fin_maps.

Open Scope string_scope.
Open Scope list_scope.
Set Warnings "-register-all".
#[local] Unset Elimination Schemes.

(** ** Values of the scripting language *)

(** [starlark.Value], restricted to the shapes the two files build or
    inspect.  A [*starlark.Dict] may be the nil pointer ([VDict None]); a
    [*starlarkstruct.Struct] is its field map (the constructor is always
    [starlarkstruct.Default]). *)
Inductive Value : Type :=
| VNone
| VString (s : string)
| VList (elems : list Value)
| VDict (d : option (list (Value * Value)))
| VStruct (fields : gmap string Value).

#[local] Set Elimination Schemes.

Abbreviation Dict := (list (Value * Value)) (only parsing).
Abbreviation StringDict := (gmap string Value) (only parsing).
Abbreviation Struct := (gmap string Value) (only parsing).
Abbreviation Tuple := (list Value) (only parsing).

(** ** Go errors *)

(** An [error] is a message ([fmt.Errorf], [errors.New]) or a cause wrapped
    with a message ([errors.Wrap]). *)
Inductive error : Type :=
| Errorf (msg : string)
| Wrap (cause : error) (msg : string).

(** The Go pair [(value, err)] with [err != nil] exactly when no value is
    returned. *)
Inductive result (A : Type) : Type :=
| Ok (a : A)
| Err (e : error).
Arguments Ok {A} a.
Arguments Err {A} e.

#[global] Instance result_ret : MRet result := fun A a => Ok a.
#[global] Instance result_bind : MBind result :=
  fun A B f r => match r with Ok a => f a | Err e => Err e end.
#[global] Instance result_fmap : FMap result :=
  fun A B f r => match r with Ok a => Ok (f a) | Err e => Err e end.

(** [if err != nil { return nil, errors.Wrap(err, msg) }] *)
Definition wrap {A} (msg : string) (r : result A) : result A :=
  match r with
  | Ok a => Ok a
  | Err e => Err (Wrap e msg)
  end.

Definition is_ok {A} (r : result A) : bool :=
  match r with Ok _ => true | Err _ => false end.

(** ** starlarkstruct.Struct and starlark.StringDict *)

(** [s.Attr(name)]: the field, or a no-such-attribute error. *)
Definition Attr (s : Struct) (name : string) : result Value :=
  match s !! name with
  | Some v => Ok v
  | None => Err (Errorf ("struct has no ." +:+ name +:+ " attribute"))
  end.

(** [s.ToStringDict(d)]: every field of [s] is written into [d]. *)
Definition ToStringDict (s : Struct) (d : StringDict) : StringDict := s ∪ d.

(** [starlarkstruct.FromStringDict(starlarkstruct.Default, d)] *)
Definition FromStringDict (d : StringDict) : Struct := d.

(** ** The thread and its locals *)

Record Thread : Type := { locals : gmap string Value }.

(** [thread.Local(key)]; [None] is Go's nil interface. *)
Definition Local (thread : Thread) (key : string) : option Value :=
  locals thread !! key.

(** [thread.SetLocal(key, value)] *)
Definition SetLocal (thread : Thread) (key : string) (value : Value) : Thread :=
  {| locals := <[key := value]> (locals thread) |}.

(** ** Cluster nodes ([coreV1.Node]) *)

Record NodeAddress : Type := { Type_ : string; Address : string }.
Record NodeStatus : Type := { Addresses : list NodeAddress }.
Record Node : Type := { Name : string; Status : NodeStatus }.

(** ** Identifiers *)

(** Modelled from the spec: the [identifiers] table is declared outside the
    two files.  The spec gives the provider kind as "kube_nodes_provider" and
    the key of the connection sub-configuration as "ssh_config"; the key of
    the default global configuration is the name of the [crashd_config]
    built-in. *)
Module identifiers.
Definition kubeNodesProvider : string := "kube_nodes_provider".
Definition sshCfg : string := "ssh_config".
Definition crashdCfg : string := "crashd_config".
End identifiers.

(** ** Search parameters *)

(** Modelled from the spec: [k8s.SearchParams] and [k8s.NewSearchParams] are
    declared in the [k8s] package, outside the two files.  The spec gives the
    record two set-valued fields, [names] and [labels], both optional and
    empty by default, read from the keys of the same name; a value is a
    string or a collection of strings, and its members are those strings.
    For a value of another shape the spec has the normalizer fail, which
    [generateSearchParams], a function without an error result, cannot do:
    the model gives such a value, and a member of a list that is not a
    string, no member.  The properties below that read [names] rely on the
    model for strings and collections of strings only. *)
Record SearchParams : Type := { names : list string; labels : list string }.

Definition strings_of (v : Value) : list string :=
  match v with
  | VString s => [s]
  | VList elems =>
      omap (fun x => match x with VString s => Some s | _ => None end) elems
  | _ => []
  end.

Definition NewSearchParams (p : Struct) : SearchParams :=
  {| names := from_option strings_of [] (p !! "names");
     labels := from_option strings_of [] (p !! "labels") |}.

(** ** Raw search results *)

Section Results.
Context {RawObject : Type}.

(** An [unstructured.Unstructured]: [Object] is the untyped content. *)
Record Unstructured : Type := { Object : RawObject }.
Record UnstructuredList : Type := { Items : list Unstructured }.
(** A [k8s.SearchResult]; only its [List] field is read. *)
Record SearchResult : Type := { ResultList : UnstructuredList }.
End Results.
Arguments Unstructured : clear implicits.
Arguments UnstructuredList : clear implicits.
Arguments SearchResult : clear implicits.

(** ** External collaborators *)

(** What the two files call but do not define: the kubeconfig lookup, the
    search client of the [k8s] package, the unstructured converter of
    apimachinery, the string renderings of the search parameters, and the
    helpers of the [starlark] package. *)
Class Collaborators : Type := {
  Client : Type;
  RawObject : Type;
  getKubeConfigPath : Thread -> Struct -> result string;
  New : string -> result Client;
  Search : Client -> string -> string -> string -> string ->
           string -> string -> string -> result (list (SearchResult RawObject));
  FromUnstructured : RawObject -> result Node;
  Names : SearchParams -> string;
  Labels : SearchParams -> string;
  kwargsToStruct : list Tuple -> result Struct;
  tupleSliceToDict : list Tuple -> result Dict;
  getGid : string;
  getUid : string;
  defaults_workdir : string;
  defaults_outPath : string;
}.

(** ** kube_nodes_provider.go *)

(** [getNodeInternalIP]: the named result [ipAddr] starts as the empty
    string; the loop returns at the first address of type "InternalIP". *)
Fixpoint internalIPLoop (addrs : list NodeAddress) (ipAddr : string) : string :=
  match addrs with
  | [] => ipAddr
  | addr :: rest =>
      if String.eqb (Type_ addr) "InternalIP" then Address addr
      else internalIPLoop rest ipAddr
  end.

Definition getNodeInternalIP (node : Node) : string :=
  internalIPLoop (Addresses (Status node)) "".

(** [generateSearchParams]: when the struct has a [nodes] attribute its
    fields are copied to a fresh dictionary, [dict["names"] = dict["nodes"]]
    is executed and the struct is rebuilt.  The copy holds [nodes] whenever
    [Attr] succeeded, so the assignment always finds its right-hand side (see
    [nodes_copied]); the other branch of the lookup leaves [dict] as it
    is. *)
Definition generateSearchParams (structVal : Struct) : SearchParams :=
  let structVal :=
    match Attr structVal "nodes" with
    | Ok _ =>
        let dict : StringDict := ∅ in
        let dict := ToStringDict structVal dict in
        let dict :=
          match dict !! "nodes" with
          | Some v => <["names" := v]> dict
          | None => dict
          end in
        FromStringDict dict
    | Err _ => structVal
    end in
  NewSearchParams structVal.

Section Provider.
Context `{K : Collaborators}.

(** The inner loop of [getNodes]: decode every item of one result, appending
    to [nodes]; the first failure returns [nil, err]. *)
Fixpoint collateItems (items : list (Unstructured RawObject))
    (nodes : list Node) : result (list Node) :=
  match items with
  | [] => Ok nodes
  | item :: rest =>
      match FromUnstructured (Object item) with
      | Err err => Err err
      | Ok node => collateItems rest (nodes ++ [node])
      end
  end.

(** The outer loop of [getNodes], over the search results. *)
Fixpoint collate (nodeResults : list (SearchResult RawObject))
    (nodes : list Node) : result (list Node) :=
  match nodeResults with
  | [] => Ok nodes
  | result :: rest =>
      nodes ← collateItems (Items (ResultList result)) nodes;
      collate rest nodes
  end.

Definition getNodes (k8sc : Client) (names labels : string)
    : result (list Node) :=
  nodeResults ← Search k8sc "core" "nodes" "" "" names labels "";
  collate nodeResults [].

(** The loop building [nodeIps]. *)
Definition nodeIpsLoop (nodes : list Node) : list Value :=
  fold_left
    (fun nodeIps node => nodeIps ++ [VString (getNodeInternalIP node)])
    nodes [].

(** [newKubeNodesProvider].  The thread is only read. *)
Definition newKubeNodesProvider (thread : Thread) (structVal : Struct)
    : result Struct :=
  kubeconfig ← wrap "failed to kubeconfig" (getKubeConfigPath thread structVal);
  client ← wrap "could not initialize search client" (New kubeconfig);
  let searchParams := generateSearchParams structVal in
  nodes ← wrap "could not fetch nodes"
            (getNodes client (Names searchParams) (Labels searchParams));
  let kubeNodesProviderDict : StringDict :=
    <["transport" := VString "ssh"]>
      (<["kind" := VString identifiers.kubeNodesProvider]> ∅) in
  let nodeIps := nodeIpsLoop nodes in
  let kubeNodesProviderDict := <["hosts" := VList nodeIps]> kubeNodesProviderDict in
  match kubeNodesProviderDict !! identifiers.sshCfg with
  | Some _ => Ok (FromStringDict kubeNodesProviderDict)
  | None =>
      match Local thread identifiers.sshCfg with
      | Some (VStruct sshcfg) =>
          let kubeNodesProviderDict :=
            <[identifiers.sshCfg := VStruct sshcfg]> kubeNodesProviderDict in
          Ok (FromStringDict kubeNodesProviderDict)
      | _ =>
          Err (Errorf (identifiers.kubeNodesProvider
                         +:+ ": default ssh_config not found"))
      end
  end.

(** [KubeNodesProviderFn], the built-in; the builtin [b] is not used and is
    left out, [args] is ignored. *)
Definition KubeNodesProviderFn (thread : Thread) (args : Tuple)
    (kwargs : list Tuple) : result Struct :=
  structVal ← kwargsToStruct kwargs;
  newKubeNodesProvider thread structVal.

(** ** crashd_config.go *)

(** [crashdConfigFn]: [kwargs] is [None] for Go's nil slice; the builtin
    [b] is not used and is left out.  The result and the thread after the call
    are returned; on the error path the thread is as it was. *)
Definition crashdConfigFn (thread : Thread) (args : Tuple)
    (kwargs : option (list Tuple)) : result Value * Thread :=
  let dictionary : result (option Dict) :=
    match kwargs with
    | Some kwargs => dict ← tupleSliceToDict kwargs; Ok (Some dict)
    | None => Ok None
    end in
  match dictionary with
  | Err err => (Err err, thread)
  | Ok dictionary =>
      let thread := SetLocal thread identifiers.crashdCfg (VDict dictionary) in
      (Ok (VDict dictionary), thread)
  end.

(** [addDefaultCrashdConf]: the error of the call, if any, and the thread
    after it. *)
Definition addDefaultCrashdConf (thread : Thread) : option error * Thread :=
  let args : list Tuple :=
    [ [VString "gid"; VString getGid];
      [VString "uid"; VString getUid];
      [VString "workdir"; VString defaults_workdir];
      [VString "output_path"; VString defaults_outPath] ] in
  match crashdConfigFn thread [] (Some args) with
  | (Err err, thread) => (Some err, thread)
  | (Ok _, thread) => (None, thread)
  end.

End Provider.

(** ** The items of a raw search result *)

(** Every item of every result, in the order the two loops of [getNodes]
    visit them. *)
Definition allItems {O : Type} (nodeResults : list (SearchResult O))
    : list (Unstructured O) :=
  flat_map (fun result => Items (ResultList result)) nodeResults.

(** An item that decodes. *)
Definition decodes `{K : Collaborators} (item : Unstructured RawObject) : Prop :=
  is_ok (FromUnstructured (Object item)) = true.

(** [node] is what [item] decodes to. *)
Definition decodesTo `{K : Collaborators} (item : Unstructured RawObject)
    (node : Node) : Prop :=
  FromUnstructured (Object item) = Ok node.

(** The error of step 7 of the resolution. *)
Definition MissingDefaultError : error :=
  Errorf "kube_nodes_provider: default ssh_config not found".

(** ** Notions used in the statements *)

(** An address entry that is not an internal address. *)
Definition notInternal (addr : NodeAddress) : Prop :=
  Type_ addr <> "InternalIP".

(** The struct of a successful resolution, given the nodes and the default
    found in the thread. *)
Definition providerStruct (nodes : list Node) (sshcfg : Struct) : Struct :=
  <[identifiers.sshCfg := VStruct sshcfg]>
    (<["hosts" := VList ((fun node => VString (getNodeInternalIP node)) <$> nodes)]>
       (<["transport" := VString "ssh"]>
          (<["kind" := VString identifiers.kubeNodesProvider]> ∅))).

(** The dictionary a call builds from its keyword arguments: the nil
    dictionary for nil arguments, otherwise what [tupleSliceToDict] makes of
    them. *)
Inductive built `{K : Collaborators} : option (list Tuple) -> option Dict -> Prop :=
| built_nil : built None None
| built_dict kwargs dict :
    tupleSliceToDict kwargs = Ok dict -> built (Some kwargs) (Some dict).

(** The test of the loop of [getNodeInternalIP]. *)
Definition isInternal (addr : NodeAddress) : bool :=
  String.eqb (Type_ addr) "InternalIP".

(** The struct [generateSearchParams] hands to [NewSearchParams]. *)
Definition normalized (structVal : Struct) : Struct :=
  match structVal !! "nodes" with
  | Some v => <["names" := v]> structVal
  | None => structVal
  end.

(** The keyword arguments [addDefaultCrashdConf] passes. *)
Definition defaultArgs `{K : Collaborators} : list Tuple :=
  [ [VString "gid"; VString getGid];
    [VString "uid"; VString getUid];
    [VString "workdir"; VString defaults_workdir];
    [VString "output_path"; VString defaults_outPath] ].

(** The host entry of an item: the internal address of what it decodes
    to. *)
Definition hostOf `{K : Collaborators} (item : Unstructured RawObject)
    (host : Value) : Prop :=
  exists node, decodesTo item node /\ host = VString (getNodeInternalIP node).

(** The body of [generateSearchParams] with the constructor of the [k8s]
    package as a parameter: what the function does to its argument, whatever
    [k8s.NewSearchParams] makes of the struct it is handed. *)
Definition generateSearchParamsWith {A : Type} (newSearchParams : Struct -> A)
    (structVal : Struct) : A :=
  let structVal :=
    match Attr structVal "nodes" with
    | Ok _ =>
        let dict : StringDict := ∅ in
        let dict := ToStringDict structVal dict in
        let dict :=
          match dict !! "nodes" with
          | Some v => <["names" := v]> dict
          | None => dict
          end in
        FromStringDict dict
    | Err _ => structVal
    end in
  newSearchParams structVal.

(** The collaborators [K] with another query client: another client type,
    another construction and another search; the rest is that of [K]. *)
Definition withQueryClient (K : Collaborators) (C : Type)
    (new : string -> result C)
    (search : C -> string -> string -> string -> string ->
              string -> string -> string ->
              result (list (SearchResult (@RawObject K))))
    : Collaborators :=
  {| Client := C;
     RawObject := @RawObject K;
     getKubeConfigPath := @getKubeConfigPath K;
     New := new;
     Search := search;
     FromUnstructured := @FromUnstructured K;
     Names := @Names K;
     Labels := @Labels K;
     kwargsToStruct := @kwargsToStruct K;
     tupleSliceToDict := @tupleSliceToDict K;
     getGid := @getGid K;
     getUid := @getUid K;
     defaults_workdir := @defaults_workdir K;
     defaults_outPath := @defaults_outPath K |}.

(** Two query clients respond alike to the search of a resolution: both
    constructions fail with the same error, or both succeed and the two
    searches for [names] and [labels] return the same. *)
Definition sameResponse {O C1 C2 : Type}
    (search1 : C1 -> string -> string -> string -> string ->
               string -> string -> string -> result (list (SearchResult O)))
    (search2 : C2 -> string -> string -> string -> string ->
               string -> string -> string -> result (list (SearchResult O)))
    (client1 : result C1) (client2 : result C2) (names labels : string)
    : Prop :=
  match client1, client2 with
  | Ok c1, Ok c2 =>
      search1 c1 "core" "nodes" "" "" names labels ""
      = search2 c2 "core" "nodes" "" "" names labels ""
  | Err e1, Err e2 => e1 = e2
  | _, _ => False
  end.

(** ** A test double for the collaborators *)

Module Double.

(** Raw objects: a node, or an object of another kind, which the converter
    rejects. *)
Inductive raw : Type :=
| RawNode (node : Node)
| RawOther (kind : string).

Definition decode (o : raw) : result Node :=
  match o with
  | RawNode node => Ok node
  | RawOther kind => Err (Errorf ("cannot convert " +:+ kind +:+ " to Node"))
  end.

Definition pairOf (t : Tuple) : result (Value * Value) :=
  match t with
  | [k; v] => Ok (k, v)
  | _ => Err (Errorf "keyword argument is not a pair")
  end.

Fixpoint pairs (kwargs : list Tuple) : result Dict :=
  match kwargs with
  | [] => Ok []
  | t :: rest => kv ← pairOf t; d ← pairs rest; Ok (kv :: d)
  end.

Fixpoint fields (kwargs : list Tuple) : result Struct :=
  match kwargs with
  | [] => Ok ∅
  | [VString k; v] :: rest => s ← fields rest; Ok (<[k := v]> s)
  | _ => Err (Errorf "keyword argument is not a named value")
  end.

(** Collaborators with fixed answers: the kubeconfig lookup, the client
    construction and the search return what they are given. *)
Definition cluster (kubeconfig : result string) (client : result unit)
    (response : result (list (SearchResult raw))) : Collaborators :=
  {| Client := unit;
     RawObject := raw;
     getKubeConfigPath := fun _ _ => kubeconfig;
     New := fun _ => client;
     Search := fun _ _ _ _ _ _ _ _ => response;
     FromUnstructured := decode;
     Names := fun p => String.concat " " (names p);
     Labels := fun p => String.concat " " (labels p);
     kwargsToStruct := fields;
     tupleSliceToDict := pairs;
     getGid := "0";
     getUid := "0";
     defaults_workdir := "/tmp/crashd";
     defaults_outPath := "/tmp/crashd.tar.gz" |}.

Definition oneResult (objects : list raw) : SearchResult raw :=
  {| ResultList := {| Items := (fun o => {| Object := o |}) <$> objects |} |}.

(** Addresses in the order Hostname, InternalIP, InternalIP. *)
Definition nodeA : Node :=
  {| Name := "node-a";
     Status := {| Addresses :=
       [ {| Type_ := "Hostname"; Address := "node-a" |};
         {| Type_ := "InternalIP"; Address := "10.0.0.5" |};
         {| Type_ := "InternalIP"; Address := "10.0.0.6" |} ] |} |}.

(** A node without an internal address. *)
Definition nodeB : Node :=
  {| Name := "node-b";
     Status := {| Addresses :=
       [ {| Type_ := "ExternalIP"; Address := "203.0.113.7" |} ] |} |}.

Definition nodeC : Node :=
  {| Name := "node-c";
     Status := {| Addresses :=
       [ {| Type_ := "InternalIP"; Address := "10.0.0.9" |} ] |} |}.

(** A healthy cluster answering with [objects], split over two results. *)
Definition healthy (first second : list raw) : Collaborators :=
  cluster (Ok "/etc/kube/config") (Ok tt)
    (Ok [oneResult first; oneResult second]).

Definition sshRoot : Struct := {[ "username" := VString "root" ]}.
Definition sshAlice : Struct := {[ "username" := VString "alice" ]}.

(** A thread whose only local is the default ssh configuration. *)
Definition threadWithDefault : Thread :=
  {| locals := {[ identifiers.sshCfg := VStruct sshRoot ]} |}.

Definition emptyThread : Thread := {| locals := ∅ |}.

End Double.

(** * Properties *)

(** ** Structs and dictionaries *)

Lemma Attr_Ok (s : Struct) (name : string) (v : Value) :
  Attr s name = Ok v <-> s !! name = Some v.
Proof.
  unfold Attr. destruct (s !! name) as [w|]; split; intros H;
    (congruence || discriminate || inversion H; done).
Qed.

Lemma Attr_Err (s : Struct) (name : string) :
  is_ok (Attr s name) = false <-> s !! name = None.
Proof. unfold Attr. destruct (s !! name); simpl; split; congruence. Qed.

Lemma ToStringDict_empty (s : Struct) : ToStringDict s ∅ = s.
Proof. unfold ToStringDict. apply (right_id_L ∅ (∪)). Qed.

(** The copy made by [generateSearchParams] holds [nodes] whenever the
    struct has that attribute: the assignment [dict["names"] = dict["nodes"]]
    never reads a missing key. *)
Lemma nodes_copied (structVal : Struct) (v : Value) :
  Attr structVal "nodes" = Ok v ->
  ToStringDict structVal ∅ !! "nodes" = Some v.
Proof. rewrite ToStringDict_empty. apply Attr_Ok. Qed.

(** ** The argument normalizer *)

(** Without [nodes] the struct reaches [NewSearchParams] untouched. *)
Lemma generateSearchParams_no_nodes (structVal : Struct) :
  structVal !! "nodes" = None ->
  generateSearchParams structVal = NewSearchParams structVal.
Proof. intros H. unfold generateSearchParams, Attr. by rewrite H. Qed.

(** With [nodes] the struct that reaches [NewSearchParams] is the given one
    with [names] overwritten. *)
Lemma generateSearchParams_nodes (structVal : Struct) (v : Value) :
  structVal !! "nodes" = Some v ->
  generateSearchParams structVal = NewSearchParams (<["names" := v]> structVal).
Proof.
  intros H. unfold generateSearchParams, Attr, FromStringDict.
  rewrite H, ToStringDict_empty, H. done.
Qed.

(** A collection of strings denotes exactly its members, in order. *)
Lemma strings_of_collection (l : list string) :
  strings_of (VList (VString <$> l)) = l.
Proof.
  unfold strings_of. induction l as [|x l IH]; [done|].
  cbn. f_equal. exact IH.
Qed.

(** C3: when [names] is the only alias present the struct reaches
    [NewSearchParams] as given and the effective names are the members of the
    given [names] value; when both [nodes] and [names] are present the struct
    that reaches [NewSearchParams] has [names] overwritten with the [nodes]
    value, the effective names are the members of the [nodes] value, and the
    [names] value given plays no part. *)
Theorem alias_precedence (structVal : Struct) :
  (forall v, structVal !! "nodes" = None ->
             structVal !! "names" = Some v ->
             generateSearchParams structVal = NewSearchParams structVal /\
             names (generateSearchParams structVal) = strings_of v) /\
  (forall v w, structVal !! "nodes" = Some v ->
               structVal !! "names" = Some w ->
               generateSearchParams structVal
                 = NewSearchParams (<["names" := v]> structVal) /\
               names (generateSearchParams structVal) = strings_of v).
Proof.
  split.
  - intros v Hnodes Hnames.
    rewrite generateSearchParams_no_nodes by done.
    split; [done|]. simpl. by rewrite Hnames.
  - intros v w Hnodes _.
    rewrite (generateSearchParams_nodes _ v) by done.
    split; [done|]. simpl. by rewrite lookup_insert_eq.
Qed.

(** The two scenarios of the normalizer: only [names], and both aliases. *)
Lemma alias_precedence_witness :
  names (generateSearchParams {[ "names" := VList [VString "node-a"] ]})
    = ["node-a"] /\
  names (generateSearchParams
           (<["nodes" := VList [VString "node-b"]]>
              {[ "names" := VList [VString "node-c"] ]}))
    = ["node-b"].
Proof.
  split.
  - refine (proj2 (proj1 (alias_precedence {[ "names" := VList [VString "node-a"] ]})
                     (VList [VString "node-a"]) _ _)); vm_compute; reflexivity.
  - refine (proj2 (proj2 (alias_precedence
                            (<["nodes" := VList [VString "node-b"]]>
                               {[ "names" := VList [VString "node-c"] ]}))
                     (VList [VString "node-b"]) (VList [VString "node-c"]) _ _));
      vm_compute; reflexivity.
Defined.

(** ** The internal address *)

Lemma internalIPLoop_none (addrs : list NodeAddress) (ipAddr : string) :
  Forall notInternal addrs -> internalIPLoop addrs ipAddr = ipAddr.
Proof.
  induction 1 as [|addr rest Hne _ IH]; simpl; [done|].
  apply String.eqb_neq in Hne. by rewrite Hne.
Qed.

Lemma internalIPLoop_first (pre post : list NodeAddress) (addr : NodeAddress)
    (ipAddr : string) :
  Forall notInternal pre -> Type_ addr = "InternalIP" ->
  internalIPLoop (pre ++ addr :: post) ipAddr = Address addr.
Proof.
  intros Hpre Haddr. induction Hpre as [|a rest Hne _ IH]; simpl.
  - rewrite Haddr. done.
  - apply String.eqb_neq in Hne. by rewrite Hne.
Qed.

(** Every address list either has a first internal entry or has none. *)
Lemma first_internal_or_none (addrs : list NodeAddress) :
  (exists pre addr post, addrs = pre ++ addr :: post /\
      Forall notInternal pre /\ Type_ addr = "InternalIP") \/
  Forall notInternal addrs.
Proof.
  induction addrs as [|a rest IH]; [by right|].
  destruct (String.eqb_spec (Type_ a) "InternalIP") as [Heq|Hne].
  - left. exists [], a, rest. by repeat split.
  - destruct IH as [(pre & addr & post & -> & Hpre & Haddr)|Hnone].
    + left. exists (a :: pre), addr, post. repeat split; [|done].
      by constructor.
    + right. by constructor.
Qed.

(** C4: [getNodeInternalIP] returns the address of the first entry, in list
    order, whose type is "InternalIP"; when no entry has that type (the
    empty list included) it returns the empty string.  The function is total
    and has no error result. *)
Theorem getNodeInternalIP_first_internal (node : Node) :
  (exists pre addr post,
      Addresses (Status node) = pre ++ addr :: post /\
      Forall notInternal pre /\
      Type_ addr = "InternalIP" /\
      getNodeInternalIP node = Address addr) \/
  (Forall notInternal (Addresses (Status node)) /\
   getNodeInternalIP node = "").
Proof.
  unfold getNodeInternalIP.
  destruct (first_internal_or_none (Addresses (Status node)))
    as [(pre & addr & post & Heq & Hpre & Haddr)|Hnone].
  - left. exists pre, addr, post. repeat split; try done.
    rewrite Heq. by apply internalIPLoop_first.
  - right. split; [done|]. by apply internalIPLoop_none.
Qed.

Example getNodeInternalIP_nodeA : getNodeInternalIP Double.nodeA = "10.0.0.5".
Proof. reflexivity. Qed.

Example getNodeInternalIP_nodeB : getNodeInternalIP Double.nodeB = "".
Proof. reflexivity. Qed.

Example getNodeInternalIP_no_addresses :
  getNodeInternalIP {| Name := "bare"; Status := {| Addresses := [] |} |} = "".
Proof. reflexivity. Qed.

(** ** The record converter *)

Section Converter.
Context `{K : Collaborators}.

(** Items that all decode are appended to the accumulator in order. *)
Lemma collateItems_decoded (items : list (Unstructured RawObject))
    (decoded acc : list Node) :
  Forall2 decodesTo items decoded ->
  collateItems items acc = Ok (acc ++ decoded).
Proof.
  intros H. revert acc.
  induction H as [|item node items decoded Hitem _ IH]; intros acc; simpl.
  - by rewrite app_nil_r.
  - unfold decodesTo in Hitem. rewrite Hitem, IH, <- app_assoc. done.
Qed.

(** An item that does not decode makes the inner loop return its error,
    whatever was accumulated. *)
Lemma collateItems_failure (items : list (Unstructured RawObject))
    (acc : list Node) :
  Exists (fun item => ~ decodes item) items ->
  exists err, collateItems items acc = Err err.
Proof.
  intros H. revert acc.
  induction H as [item rest Hbad|item rest _ IH]; intros acc; simpl.
  - unfold decodes in Hbad.
    destruct (FromUnstructured (Object item)) as [node|err]; [|by eexists].
    by destruct Hbad.
  - destruct (FromUnstructured (Object item)) as [node|err]; [|by eexists].
    apply IH.
Qed.

(** The inner loop either fails or extends the accumulator. *)
Lemma collateItems_extends (items : list (Unstructured RawObject))
    (acc nodes : list Node) :
  collateItems items acc = Ok nodes ->
  exists decoded, nodes = acc ++ decoded /\ Forall2 decodesTo items decoded.
Proof.
  revert acc. induction items as [|item rest IH]; intros acc; simpl.
  - intros [= <-]. exists []. by rewrite app_nil_r.
  - destruct (FromUnstructured (Object item)) as [node|err] eqn:Hitem; [|done].
    intros (decoded & -> & Hrest)%IH.
    exists (node :: decoded). rewrite <- app_assoc. split; [done|].
    by constructor.
Qed.

Lemma collate_decoded (nodeResults : list (SearchResult RawObject))
    (decoded acc : list Node) :
  Forall2 decodesTo (allItems nodeResults) decoded ->
  collate nodeResults acc = Ok (acc ++ decoded).
Proof.
  revert decoded acc.
  induction nodeResults as [|result rest IH]; intros decoded acc; simpl.
  - intros ->%Forall2_nil_inv_l. by rewrite app_nil_r.
  - intros (d1 & d2 & H1 & H2 & ->)%Forall2_app_inv_l.
    rewrite (collateItems_decoded _ d1) by done. simpl.
    rewrite (IH d2) by done. by rewrite <- app_assoc.
Qed.

Lemma collate_failure (nodeResults : list (SearchResult RawObject))
    (acc : list Node) :
  Exists (fun item => ~ decodes item) (allItems nodeResults) ->
  exists err, collate nodeResults acc = Err err.
Proof.
  revert acc.
  induction nodeResults as [|result rest IH]; intros acc; simpl.
  - by intros ?%Exists_nil.
  - intros [Hhere|Hlater]%Exists_app.
    + destruct (collateItems_failure _ acc Hhere) as [err ->]. by eexists.
    + destruct (collateItems (Items (ResultList result)) acc) as [nodes|err];
        [|by eexists].
      apply IH, Hlater.
Qed.

(** Items that all decode have a list of decoded records. *)
Lemma decoded_exists (items : list (Unstructured RawObject)) :
  Forall decodes items -> exists decoded, Forall2 decodesTo items decoded.
Proof.
  induction 1 as [|item rest Hitem _ [decoded IH]]; [by exists []|].
  unfold decodes in Hitem.
  destruct (FromUnstructured (Object item)) as [node|err] eqn:E; [|done].
  exists (node :: decoded). by constructor.
Qed.

(** C6: when the search returns [nodeResults] and each of its N items
    decodes, [getNodes] returns N node records, the i-th being what the i-th
    item decodes to. *)
Theorem getNodes_all_decoded (k8sc : Client) (names labels : string)
    (nodeResults : list (SearchResult RawObject)) :
  Search k8sc "core" "nodes" "" "" names labels "" = Ok nodeResults ->
  Forall decodes (allItems nodeResults) ->
  exists nodes,
    getNodes k8sc names labels = Ok nodes /\
    length nodes = length (allItems nodeResults) /\
    Forall2 decodesTo (allItems nodeResults) nodes.
Proof.
  intros Hsearch Hall.
  destruct (decoded_exists _ Hall) as [decoded Hdec].
  exists decoded. repeat split; [|by symmetry; eapply Forall2_length|done].
  unfold getNodes. rewrite Hsearch. simpl.
  by rewrite (collate_decoded _ decoded).
Qed.

(** C7: when the search returns [nodeResults] and at least one item does
    not decode, [getNodes] returns an error and no records, and a resolution
    whose search is this one returns that error, wrapped, and no provider
    struct. *)
Theorem decode_failure_aborts (k8sc : Client) (names labels : string)
    (nodeResults : list (SearchResult RawObject)) :
  Search k8sc "core" "nodes" "" "" names labels "" = Ok nodeResults ->
  Exists (fun item => ~ decodes item) (allItems nodeResults) ->
  exists err,
    getNodes k8sc names labels = Err err /\
    forall thread structVal kubeconfig,
      getKubeConfigPath thread structVal = Ok kubeconfig ->
      New kubeconfig = Ok k8sc ->
      names = Names (generateSearchParams structVal) ->
      labels = Labels (generateSearchParams structVal) ->
      newKubeNodesProvider thread structVal
        = Err (Wrap err "could not fetch nodes").
Proof.
  intros Hsearch Hbad.
  destruct (collate_failure _ [] Hbad) as [err Herr].
  assert (Hnodes : getNodes k8sc names labels = Err err).
  { unfold getNodes. rewrite Hsearch. simpl. exact Herr. }
  exists err. split; [done|].
  intros thread structVal kubeconfig Hcfg Hnew -> ->.
  unfold newKubeNodesProvider. rewrite Hcfg. simpl. rewrite Hnew. simpl.
  rewrite Hnodes. done.
Qed.

End Converter.

(** ** The provider composer *)

Section Composer.
Context `{K : Collaborators}.

(** The loop over the nodes appends one host per node. *)
Lemma nodeIpsLoop_map (nodes : list Node) :
  nodeIpsLoop nodes = (fun node => VString (getNodeInternalIP node)) <$> nodes.
Proof.
  unfold nodeIpsLoop.
  enough (H : forall acc,
    fold_left
      (fun nodeIps node => nodeIps ++ [VString (getNodeInternalIP node)])
      nodes acc
    = acc ++ ((fun node => VString (getNodeInternalIP node)) <$> nodes))
    by apply (H []).
  induction nodes as [|node rest IH]; intros acc; simpl.
  - by rewrite app_nil_r.
  - rewrite IH, <- app_assoc. done.
Qed.

(** The dictionary built before the connection step has three keys, none of
    them the key of the connection sub-configuration. *)
Lemma fresh_dict_has_no_sshCfg (hosts : list Value) :
  (<["hosts" := VList hosts]>
     (<["transport" := VString "ssh"]>
        (<["kind" := VString identifiers.kubeNodesProvider]> ∅))
   : StringDict) !! identifiers.sshCfg = None.
Proof.
  unfold identifiers.sshCfg.
  rewrite !lookup_insert_ne by done. apply lookup_empty.
Qed.

(** What a resolution does once the nodes are fetched. *)
Lemma newKubeNodesProvider_fetched (thread : Thread) (structVal : Struct)
    (kubeconfig : string) (client : Client) (nodes : list Node) :
  getKubeConfigPath thread structVal = Ok kubeconfig ->
  New kubeconfig = Ok client ->
  getNodes client (Names (generateSearchParams structVal))
    (Labels (generateSearchParams structVal)) = Ok nodes ->
  newKubeNodesProvider thread structVal =
    match Local thread identifiers.sshCfg with
    | Some (VStruct sshcfg) => Ok (providerStruct nodes sshcfg)
    | _ => Err MissingDefaultError
    end.
Proof.
  intros Hcfg Hnew Hnodes. unfold newKubeNodesProvider.
  rewrite Hcfg. simpl. rewrite Hnew. simpl. rewrite Hnodes. simpl.
  rewrite fresh_dict_has_no_sshCfg, nodeIpsLoop_map. done.
Qed.

(** A successful resolution went through every step. *)
Lemma newKubeNodesProvider_Ok_inv (thread : Thread) (structVal cfg : Struct) :
  newKubeNodesProvider thread structVal = Ok cfg ->
  exists kubeconfig client nodes sshcfg,
    getKubeConfigPath thread structVal = Ok kubeconfig /\
    New kubeconfig = Ok client /\
    getNodes client (Names (generateSearchParams structVal))
      (Labels (generateSearchParams structVal)) = Ok nodes /\
    Local thread identifiers.sshCfg = Some (VStruct sshcfg) /\
    cfg = providerStruct nodes sshcfg.
Proof.
  intros H.
  destruct (getKubeConfigPath thread structVal) as [kubeconfig|e] eqn:Hcfg;
    [|by unfold newKubeNodesProvider in H; rewrite Hcfg in H].
  destruct (New kubeconfig) as [client|e] eqn:Hnew;
    [|by unfold newKubeNodesProvider in H; rewrite Hcfg in H; simpl in H;
         rewrite Hnew in H].
  destruct (getNodes client (Names (generateSearchParams structVal))
              (Labels (generateSearchParams structVal)))
    as [nodes|e] eqn:Hnodes;
    [|by unfold newKubeNodesProvider in H; rewrite Hcfg in H; simpl in H;
         rewrite Hnew in H; simpl in H; rewrite Hnodes in H].
  rewrite (newKubeNodesProvider_fetched _ _ _ _ _ Hcfg Hnew Hnodes) in H.
  destruct (Local thread identifiers.sshCfg) as [[| | | |sshcfg]|] eqn:Hloc;
    try discriminate H.
  injection H as <-. by exists kubeconfig, client, nodes, sshcfg.
Qed.



(** C5: the [hosts] field of a successful resolution is the list of the
    internal addresses of the fetched nodes: one entry per node, in the order
    of the nodes, the empty string where a node has no internal address. *)
Theorem hosts_in_discovery_order (thread : Thread) (structVal cfg : Struct) :
  newKubeNodesProvider thread structVal = Ok cfg ->
  exists kubeconfig client nodes hosts,
    getKubeConfigPath thread structVal = Ok kubeconfig /\
    New kubeconfig = Ok client /\
    getNodes client (Names (generateSearchParams structVal))
      (Labels (generateSearchParams structVal)) = Ok nodes /\
    cfg !! "hosts" = Some (VList hosts) /\
    hosts = (fun node => VString (getNodeInternalIP node)) <$> nodes /\
    length hosts = length nodes.
Proof.
  intros (kubeconfig & client & nodes & sshcfg & Hcfg & Hnew & Hnodes & _ & ->)
    %newKubeNodesProvider_Ok_inv.
  exists kubeconfig, client, nodes,
    ((fun node => VString (getNodeInternalIP node)) <$> nodes).
  repeat split; try done. apply length_fmap.
Qed.

(** C8: every provider struct returned has [kind] "kube_nodes_provider" and
    [transport] "ssh". *)
Theorem kind_and_transport (thread : Thread) (structVal cfg : Struct) :
  newKubeNodesProvider thread structVal = Ok cfg ->
  cfg !! "kind" = Some (VString "kube_nodes_provider") /\
  cfg !! "transport" = Some (VString "ssh").
Proof.
  intros (_ & _ & nodes & sshcfg & _ & _ & _ & _ & ->)%newKubeNodesProvider_Ok_inv.
  unfold providerStruct, identifiers.sshCfg, identifiers.kubeNodesProvider.
  split.
  - rewrite !lookup_insert_ne by done. apply lookup_insert_eq.
  - rewrite !lookup_insert_ne by done. apply lookup_insert_eq.
Qed.

(** C9: two resolutions with the same arguments and the same thread
    contents, the second against any other query client, return the same
    result as soon as the two clients respond alike to the search of the
    call: the same provider struct, hosts in the same order, or the same
    error. *)
Theorem resolution_deterministic (C : Type) (new : string -> result C)
    (search : C -> string -> string -> string -> string ->
              string -> string -> string ->
              result (list (SearchResult RawObject)))
    (thread1 thread2 : Thread) (structVal1 structVal2 : Struct) :
  locals thread1 = locals thread2 ->
  structVal1 = structVal2 ->
  (forall kubeconfig,
     getKubeConfigPath thread1 structVal1 = Ok kubeconfig ->
     sameResponse Search search (New kubeconfig) (new kubeconfig)
       (Names (generateSearchParams structVal1))
       (Labels (generateSearchParams structVal1))) ->
  newKubeNodesProvider thread1 structVal1
    = @newKubeNodesProvider (withQueryClient K C new search)
        thread2 structVal2.
Proof.
  destruct thread1 as [l1], thread2 as [l2]. simpl.
  intros -> -> Hresp. unfold newKubeNodesProvider. simpl.
  destruct (getKubeConfigPath {| locals := l2 |} structVal2)
    as [kubeconfig|e]; [|done].
  specialize (Hresp kubeconfig eq_refl). unfold sameResponse in Hresp. simpl.
  destruct (New kubeconfig) as [client1|e1], (new kubeconfig) as [client2|e2];
    simpl; try done; [|by rewrite Hresp].
  unfold getNodes. simpl. rewrite Hresp.
  destruct (search client2 "core" "nodes" "" ""
              (Names (generateSearchParams structVal2))
              (Labels (generateSearchParams structVal2)) "")
    as [nodeResults|e]; [|done].
  simpl.
  change (@collate (withQueryClient K C new search) nodeResults [])
    with (collate nodeResults []).
  destruct (collate nodeResults []) as [nodes|e]; [|done].
  simpl. done.
Qed.

End Composer.

(** ** The default global configuration *)

Section CrashdConfig.
Context `{K : Collaborators}.

(** When the dictionary cannot be built the call returns the error and the
    thread keeps what it had. *)
Lemma crashdConfigFn_error (thread : Thread) (args : Tuple)
    (kwargs : list Tuple) (err : error) :
  tupleSliceToDict kwargs = Err err ->
  crashdConfigFn thread args (Some kwargs) = (Err err, thread).
Proof. intros H. unfold crashdConfigFn. by rewrite H. Qed.

(** C10: a call of [crashdConfigFn] returns the dictionary built from its
    keyword arguments and leaves it in the thread under the key of the
    default configuration, whatever was stored there before, without
    touching the other locals; for nil keyword arguments the dictionary
    returned and stored is the nil dictionary, and there is no error. *)
Theorem crashdConfigFn_last_writer_wins (thread : Thread) (args : Tuple)
    (kwargs : option (list Tuple)) (dictionary : option Dict) :
  built kwargs dictionary ->
  fst (crashdConfigFn thread args kwargs) = Ok (VDict dictionary) /\
  Local (snd (crashdConfigFn thread args kwargs)) identifiers.crashdCfg
    = Some (VDict dictionary) /\
  (forall key, key <> identifiers.crashdCfg ->
     Local (snd (crashdConfigFn thread args kwargs)) key = Local thread key) /\
  (kwargs = None -> dictionary = None).
Proof.
  intros Hbuilt. unfold crashdConfigFn.
  destruct Hbuilt as [|kwargs dict Hdict]; [|rewrite Hdict]; simpl;
    unfold Local, SetLocal; simpl.
  - repeat split; [apply lookup_insert_eq|].
    intros key Hkey. by rewrite lookup_insert_ne.
  - repeat split; [apply lookup_insert_eq| |done].
    intros key Hkey. by rewrite lookup_insert_ne.
Qed.

(** Of two calls in a row the thread holds the dictionary of the second. *)
Lemma crashdConfigFn_twice (thread : Thread) (args1 args2 : Tuple)
    (kwargs1 kwargs2 : option (list Tuple)) (d1 d2 : option Dict) :
  built kwargs1 d1 -> built kwargs2 d2 ->
  Local (snd (crashdConfigFn (snd (crashdConfigFn thread args1 kwargs1))
                args2 kwargs2)) identifiers.crashdCfg
    = Some (VDict d2).
Proof.
  intros _ H2. unfold crashdConfigFn at 1.
  destruct H2 as [|kwargs dict Hdict]; [|rewrite Hdict]; simpl;
    apply lookup_insert_eq.
Qed.

(** The defaults installed at start-up are what [tupleSliceToDict] makes of
    the four pairs. *)
Lemma addDefaultCrashdConf_stores (thread : Thread) (dict : Dict) :
  tupleSliceToDict
    [ [VString "gid"; VString getGid];
      [VString "uid"; VString getUid];
      [VString "workdir"; VString defaults_workdir];
      [VString "output_path"; VString defaults_outPath] ] = Ok dict ->
  fst (addDefaultCrashdConf thread) = None /\
  Local (snd (addDefaultCrashdConf thread)) identifiers.crashdCfg
    = Some (VDict (Some dict)).
Proof.
  intros H. unfold addDefaultCrashdConf, crashdConfigFn. rewrite H. simpl.
  split; [done|]. apply lookup_insert_eq.
Qed.

End CrashdConfig.

(** ** The pipeline on concrete clusters *)

Section Scenarios.
Import Double.

(** The scenario of the spec: one node with an internal address, no explicit
    connection configuration. *)
Example scenario_one_node :
  @newKubeNodesProvider (healthy [RawNode nodeC] []) threadWithDefault
    {[ "names" := VList [VString "node-c"] ]}
  = Ok (providerStruct [nodeC] sshRoot).
Proof. reflexivity. Qed.

(** C1: an explicit [ssh_config] in the arguments does not reach the result.
    With the default of the thread set to [sshRoot] and the arguments
    holding [sshAlice], the resolution succeeds and its connection field is
    [sshRoot]; with no default in the thread the same arguments fail with
    [MissingDefaultError]. *)
Theorem explicit_ssh_config_not_used :
  (exists cfg,
     @newKubeNodesProvider (healthy [RawNode nodeA] []) threadWithDefault
       {[ identifiers.sshCfg := VStruct sshAlice ]} = Ok cfg /\
     cfg !! identifiers.sshCfg = Some (VStruct sshRoot) /\
     cfg !! identifiers.sshCfg <> Some (VStruct sshAlice)) /\
  @newKubeNodesProvider (healthy [RawNode nodeA] []) emptyThread
    {[ identifiers.sshCfg := VStruct sshAlice ]} = Err MissingDefaultError.
Proof.
  split; [|reflexivity].
  exists (providerStruct [nodeA] sshRoot).
  split; [reflexivity|]. split; [reflexivity|].
  intros H. vm_compute in H. discriminate H.
Qed.



Lemma hosts_in_discovery_order_witness :
  exists cfg,
    @newKubeNodesProvider (healthy [RawNode nodeA; RawNode nodeB] [RawNode nodeC])
      threadWithDefault {[ "labels" := VList [VString "role=worker"] ]} = Ok cfg /\
    cfg !! "hosts"
      = Some (VList [VString "10.0.0.5"; VString ""; VString "10.0.0.9"]).
Proof.
  exists (providerStruct [nodeA; nodeB; nodeC] sshRoot).
  destruct (@hosts_in_discovery_order
              (healthy [RawNode nodeA; RawNode nodeB] [RawNode nodeC])
              threadWithDefault {[ "labels" := VList [VString "role=worker"] ]}
              (providerStruct [nodeA; nodeB; nodeC] sshRoot) eq_refl)
    as (kubeconfig & client & nodes & hosts & _ & _ & Hnodes & Hhosts & -> & _).
  split; [reflexivity|].
  injection Hnodes as <-. exact Hhosts.
Defined.

Lemma getNodes_all_decoded_witness :
  exists nodes,
    @getNodes (healthy [RawNode nodeA; RawNode nodeB] [RawNode nodeC])
      tt "" "role=worker" = Ok nodes /\
    length nodes = 3.
Proof.
  destruct (@getNodes_all_decoded
              (healthy [RawNode nodeA; RawNode nodeB] [RawNode nodeC])
              tt "" "role=worker"
              [oneResult [RawNode nodeA; RawNode nodeB]; oneResult [RawNode nodeC]]
              eq_refl)
    as (nodes & Hnodes & Hlen & _).
  - repeat constructor.
  - exists nodes. split; [exact Hnodes|exact Hlen].
Defined.

Lemma decode_failure_aborts_witness :
  exists err,
    @getNodes (healthy [RawNode nodeA; RawOther "Pod"] [RawNode nodeC])
      tt "" "" = Err err /\
    @newKubeNodesProvider (healthy [RawNode nodeA; RawOther "Pod"] [RawNode nodeC])
      threadWithDefault ∅ = Err (Wrap err "could not fetch nodes").
Proof.
  destruct (@decode_failure_aborts
              (healthy [RawNode nodeA; RawOther "Pod"] [RawNode nodeC])
              tt "" ""
              [oneResult [RawNode nodeA; RawOther "Pod"]; oneResult [RawNode nodeC]]
              eq_refl)
    as (err & Hnodes & Hresolve).
  - apply Exists_cons_tl, Exists_cons_hd. unfold decodes. simpl. discriminate.
  - exists err. split; [exact Hnodes|].
    exact (Hresolve threadWithDefault ∅ "/etc/kube/config"
             eq_refl eq_refl eq_refl eq_refl).
Defined.

Lemma kind_and_transport_witness :
  providerStruct [nodeC] sshRoot !! "kind" = Some (VString "kube_nodes_provider") /\
  providerStruct [nodeC] sshRoot !! "transport" = Some (VString "ssh").
Proof.
  exact (@kind_and_transport (healthy [RawNode nodeC] []) threadWithDefault
           {[ "names" := VList [VString "node-c"] ]}
           (providerStruct [nodeC] sshRoot) eq_refl).
Defined.

Lemma resolution_deterministic_witness :
  @newKubeNodesProvider (healthy [RawNode nodeA; RawNode nodeB] [])
    threadWithDefault {[ "names" := VList [VString "node-a"] ]}
  = @newKubeNodesProvider
      (withQueryClient (healthy [RawNode nodeA; RawNode nodeB] []) bool
         (fun _ => Ok true)
         (fun _ _ _ _ _ _ _ _ =>
            Ok [oneResult [RawNode nodeA; RawNode nodeB]; oneResult []]))
      {| locals := {[ "ssh_config" := VStruct sshRoot ]} |}
      {[ "names" := VList [VString "node-a"] ]}.
Proof.
  apply (@resolution_deterministic (healthy [RawNode nodeA; RawNode nodeB] [])
           bool (fun _ => Ok true)
           (fun _ _ _ _ _ _ _ _ =>
              Ok [oneResult [RawNode nodeA; RawNode nodeB]; oneResult []])
           threadWithDefault
           {| locals := {[ "ssh_config" := VStruct sshRoot ]} |}
           {[ "names" := VList [VString "node-a"] ]}
           {[ "names" := VList [VString "node-a"] ]}).
  - reflexivity.
  - reflexivity.
  - intros kubeconfig _. reflexivity.
Defined.

Lemma crashdConfigFn_last_writer_wins_witness :
  Local (snd (@crashdConfigFn (healthy [] [])
                {| locals := {[ identifiers.crashdCfg := VDict (Some []) ]} |}
                [] None))
    identifiers.crashdCfg = Some (VDict None) /\
  Local (snd (@crashdConfigFn (healthy [] []) emptyThread []
                (Some [[VString "workdir"; VString "/var/tmp"]])))
    identifiers.crashdCfg
    = Some (VDict (Some [(VString "workdir", VString "/var/tmp")])).
Proof.
  split.
  - exact (proj1 (proj2
      (@crashdConfigFn_last_writer_wins (healthy [] [])
         {| locals := {[ identifiers.crashdCfg := VDict (Some []) ]} |}
         [] None None (@built_nil (healthy [] []))))).
  - exact (proj1 (proj2
      (@crashdConfigFn_last_writer_wins (healthy [] []) emptyThread []
         (Some [[VString "workdir"; VString "/var/tmp"]])
         (Some [(VString "workdir", VString "/var/tmp")])
         (@built_dict (healthy [] [])
            [[VString "workdir"; VString "/var/tmp"]]
            [(VString "workdir", VString "/var/tmp")] eq_refl)))).
Defined.

(** A keyword argument that is not a pair: the double cannot build the
    dictionary, and the thread keeps its entry. *)
Example crashdConfigFn_error_keeps_entry :
  @crashdConfigFn (healthy [] [])
    {| locals := {[ identifiers.crashdCfg := VDict (Some []) ]} |}
    [] (Some [[VString "workdir"]])
  = (Err (Errorf "keyword argument is not a pair"),
     {| locals := {[ identifiers.crashdCfg := VDict (Some []) ]} |}).
Proof. reflexivity. Qed.

End Scenarios.

(** * Further properties of the two files *)

(** ** The internal address, continued *)

Lemma notInternal_isInternal (addr : NodeAddress) :
  notInternal addr <-> isInternal addr = false.
Proof.
  unfold notInternal, isInternal. rewrite String.eqb_neq. done.
Qed.

Lemma internalIPLoop_filter (addrs : list NodeAddress) (ipAddr : string) :
  internalIPLoop (filter (fun addr => isInternal addr = true) addrs) ipAddr
  = internalIPLoop addrs ipAddr.
Proof.
  induction addrs as [|addr rest IH]; [done|].
  rewrite filter_cons. simpl. case_decide as Hint.
  - simpl. unfold isInternal in Hint. by rewrite Hint.
  - apply not_true_is_false in Hint. unfold isInternal in Hint.
    by rewrite Hint.
Qed.

(** X1: addresses of other types play no part: two nodes whose internal
    addresses are the same, in the same order, have the same internal IP,
    whatever other entries they carry and wherever those sit. *)
Theorem internalIP_ignores_other_types (node1 node2 : Node) :
  filter (fun addr => isInternal addr = true) (Addresses (Status node1))
    = filter (fun addr => isInternal addr = true) (Addresses (Status node2)) ->
  getNodeInternalIP node1 = getNodeInternalIP node2.
Proof.
  intros H. unfold getNodeInternalIP.
  rewrite <- (internalIPLoop_filter (Addresses (Status node1))).
  rewrite <- (internalIPLoop_filter (Addresses (Status node2))).
  by rewrite H.
Qed.

(** X2: the empty string is returned in two cases only: no entry has type
    "InternalIP", or the first entry of that type has the empty address.  An
    empty host does not tell the two apart. *)
Theorem internalIP_empty_iff (node : Node) :
  getNodeInternalIP node = "" <->
  Forall notInternal (Addresses (Status node)) \/
  (exists pre addr post,
      Addresses (Status node) = pre ++ addr :: post /\
      Forall notInternal pre /\
      Type_ addr = "InternalIP" /\
      Address addr = "").
Proof.
  unfold getNodeInternalIP. split.
  - intros Hempty.
    destruct (first_internal_or_none (Addresses (Status node)))
      as [(pre & addr & post & Heq & Hpre & Haddr)|Hnone]; [|by left].
    right. exists pre, addr, post. repeat split; try done.
    rewrite Heq, (internalIPLoop_first pre post addr "" Hpre Haddr) in Hempty.
    done.
  - intros [Hnone|(pre & addr & post & Heq & Hpre & Haddr & Hempty)].
    + by apply internalIPLoop_none.
    + rewrite Heq, (internalIPLoop_first pre post addr "" Hpre Haddr). done.
Qed.

Lemma internalIP_ignores_other_types_witness :
  getNodeInternalIP Double.nodeA
  = getNodeInternalIP
      {| Name := "node-a2";
         Status := {| Addresses :=
           [ {| Type_ := "InternalIP"; Address := "10.0.0.5" |};
             {| Type_ := "ExternalIP"; Address := "198.51.100.4" |};
             {| Type_ := "InternalIP"; Address := "10.0.0.6" |} ] |} |}.
Proof.
  apply internalIP_ignores_other_types. vm_compute. reflexivity.
Defined.

(** ** The record converter, continued *)

Section ConverterMore.
Context `{K : Collaborators}.

Lemma decodesTo_decodes (items : list (Unstructured RawObject))
    (decoded : list Node) :
  Forall2 decodesTo items decoded -> Forall decodes items.
Proof.
  induction 1 as [|item node items decoded Hitem _ IH]; constructor; [|done].
  unfold decodes. unfold decodesTo in Hitem. by rewrite Hitem.
Qed.

(** The outer loop either fails or extends the accumulator with the
    decodings of all the items. *)
Lemma collate_extends (nodeResults : list (SearchResult RawObject))
    (acc nodes : list Node) :
  collate nodeResults acc = Ok nodes ->
  exists decoded,
    nodes = acc ++ decoded /\ Forall2 decodesTo (allItems nodeResults) decoded.
Proof.
  revert acc. induction nodeResults as [|result rest IH]; intros acc; simpl.
  - intros [= <-]. exists []. by rewrite app_nil_r.
  - destruct (collateItems (Items (ResultList result)) acc) as [mid|err] eqn:Hin;
      [|done].
    simpl. intros (d2 & -> & H2)%IH.
    apply collateItems_extends in Hin as (d1 & -> & H1).
    exists (d1 ++ d2). rewrite <- app_assoc. split; [done|].
    by apply Forall2_app.
Qed.

(** Where the inner loop fails: at the first item that does not decode,
    with the error of that item. *)
Lemma collateItems_error (items : list (Unstructured RawObject))
    (acc : list Node) (err : error) :
  collateItems items acc = Err err ->
  exists pre bad post,
    items = pre ++ bad :: post /\ Forall decodes pre /\
    FromUnstructured (Object bad) = Err err.
Proof.
  revert acc. induction items as [|item rest IH]; intros acc; simpl; [done|].
  destruct (FromUnstructured (Object item)) as [node|e] eqn:Hitem.
  - intros (pre & bad & post & -> & Hpre & Hbad)%IH.
    exists (item :: pre), bad, post. repeat split; [|done].
    constructor; [|done]. unfold decodes. by rewrite Hitem.
  - intros [= ->]. by exists [], item, rest.
Qed.

Lemma collate_error (nodeResults : list (SearchResult RawObject))
    (acc : list Node) (err : error) :
  collate nodeResults acc = Err err ->
  exists pre bad post,
    allItems nodeResults = pre ++ bad :: post /\ Forall decodes pre /\
    FromUnstructured (Object bad) = Err err.
Proof.
  revert acc. induction nodeResults as [|result rest IH]; intros acc; simpl;
    [done|].
  destruct (collateItems (Items (ResultList result)) acc) as [mid|e] eqn:Hin;
    simpl.
  - intros (pre & bad & post & Heq & Hpre & Hbad)%IH.
    apply collateItems_extends in Hin as (d1 & _ & H1).
    exists (Items (ResultList result) ++ pre), bad, post.
    rewrite Heq, <- app_assoc. repeat split; [|done].
    apply Forall_app. split; [by eapply decodesTo_decodes|done].
  - intros [= ->].
    apply collateItems_error in Hin as (pre & bad & post & Heq & Hpre & Hbad).
    exists pre, bad, (post ++ allItems rest).
    rewrite Heq, <- app_assoc. done.
Qed.

(** A list has one first element that does not decode. *)
Lemma first_failure_unique (pre1 pre2 post1 post2 : list (Unstructured RawObject))
    (bad1 bad2 : Unstructured RawObject) :
  pre1 ++ bad1 :: post1 = pre2 ++ bad2 :: post2 ->
  Forall decodes pre1 -> ~ decodes bad1 ->
  Forall decodes pre2 -> ~ decodes bad2 ->
  bad1 = bad2.
Proof.
  revert pre2. induction pre1 as [|x pre1 IH]; intros [|y pre2]; simpl.
  - by intros [= -> _].
  - intros [= <- _] _ Hbad1 Hpre2 _. by inversion Hpre2.
  - intros [= -> _] Hpre1 _ _ Hbad2. by inversion Hpre1.
  - intros [= _ Heq] Hpre1 Hbad1 Hpre2 Hbad2.
    inversion Hpre1. inversion Hpre2. by eapply IH.
Qed.

(** X3: [getNodes] returns a list exactly when the search succeeds and every
    item of its results decodes, and the list is then the decodings of the
    items, result after result, item after item. *)
Theorem getNodes_succeeds_iff (k8sc : Client) (names labels : string)
    (nodes : list Node) :
  getNodes k8sc names labels = Ok nodes <->
  exists nodeResults,
    Search k8sc "core" "nodes" "" "" names labels "" = Ok nodeResults /\
    Forall2 decodesTo (allItems nodeResults) nodes.
Proof.
  unfold getNodes. split.
  - destruct (Search k8sc "core" "nodes" "" "" names labels "")
      as [nodeResults|err]; [|done].
    simpl. intros (decoded & -> & Hdec)%collate_extends.
    by exists nodeResults.
  - intros (nodeResults & -> & Hdec). simpl.
    by rewrite (collate_decoded _ nodes).
Qed.

(** X4: [getNodes] fails in two ways only.  A failed search returns the
    error of the search as it is; a search that succeeded fails at the first
    item, in loop order, that does not decode, with the error of that item,
    whatever the items after it are. *)
Theorem getNodes_fails_iff (k8sc : Client) (names labels : string)
    (err : error) :
  getNodes k8sc names labels = Err err <->
  Search k8sc "core" "nodes" "" "" names labels "" = Err err \/
  (exists nodeResults pre bad post,
     Search k8sc "core" "nodes" "" "" names labels "" = Ok nodeResults /\
     allItems nodeResults = pre ++ bad :: post /\
     Forall decodes pre /\
     FromUnstructured (Object bad) = Err err).
Proof.
  unfold getNodes. split.
  - destruct (Search k8sc "core" "nodes" "" "" names labels "")
      as [nodeResults|e]; simpl.
    + intros (pre & bad & post & Heq & Hpre & Hbad)%collate_error.
      right. by exists nodeResults, pre, bad, post.
    + intros [= ->]. by left.
  - intros [->|(nodeResults & pre & bad & post & -> & Heq & Hpre & Hbad)];
      [done|].
    simpl.
    assert (Hnot : ~ decodes bad) by (unfold decodes; by rewrite Hbad).
    destruct (collate nodeResults []) as [nodes|e] eqn:Hrun.
    + apply collate_extends in Hrun as (decoded & _ & Hdec).
      apply decodesTo_decodes in Hdec. rewrite Heq in Hdec.
      apply Forall_app in Hdec as [_ Hdec]. by inversion Hdec.
    + apply collate_error in Hrun as (pre' & bad' & post' & Heq' & Hpre' & Hbad').
      assert (Hnot' : ~ decodes bad') by (unfold decodes; by rewrite Hbad').
      rewrite Heq in Heq'.
      rewrite (first_failure_unique _ _ _ _ _ _ Heq' Hpre Hnot Hpre' Hnot') in Hbad.
      congruence.
Qed.

End ConverterMore.

(** ** The provider composer, continued *)

Section ComposerMore.
Context `{K : Collaborators}.

(** X5: a resolution succeeds exactly when the kubeconfig is found, the
    client is built, the nodes are fetched and the thread holds a struct
    under the key of the connection configuration; its result is then the
    struct of the four fields. *)
Theorem newKubeNodesProvider_succeeds_iff (thread : Thread)
    (structVal cfg : Struct) :
  newKubeNodesProvider thread structVal = Ok cfg <->
  exists kubeconfig client nodes sshcfg,
    getKubeConfigPath thread structVal = Ok kubeconfig /\
    New kubeconfig = Ok client /\
    getNodes client (Names (generateSearchParams structVal))
      (Labels (generateSearchParams structVal)) = Ok nodes /\
    Local thread identifiers.sshCfg = Some (VStruct sshcfg) /\
    cfg = providerStruct nodes sshcfg.
Proof.
  split; [apply newKubeNodesProvider_Ok_inv|].
  intros (kubeconfig & client & nodes & sshcfg & Hcfg & Hnew & Hnodes & Hloc & ->).
  rewrite (newKubeNodesProvider_fetched _ _ _ _ _ Hcfg Hnew Hnodes), Hloc.
  done.
Qed.

(** X6: the errors of a resolution, in the order of its steps: the error of
    the kubeconfig lookup, wrapped; else the error of the client
    construction, wrapped; else the error of [getNodes], wrapped; else, with
    the nodes fetched, [MissingDefaultError] when the thread holds no struct
    under the key of the connection configuration.  There is no other
    error. *)
Theorem newKubeNodesProvider_fails_iff (thread : Thread) (structVal : Struct)
    (err : error) :
  newKubeNodesProvider thread structVal = Err err <->
  (exists e, getKubeConfigPath thread structVal = Err e /\
             err = Wrap e "failed to kubeconfig") \/
  (exists kubeconfig e,
     getKubeConfigPath thread structVal = Ok kubeconfig /\
     New kubeconfig = Err e /\
     err = Wrap e "could not initialize search client") \/
  (exists kubeconfig client e,
     getKubeConfigPath thread structVal = Ok kubeconfig /\
     New kubeconfig = Ok client /\
     getNodes client (Names (generateSearchParams structVal))
       (Labels (generateSearchParams structVal)) = Err e /\
     err = Wrap e "could not fetch nodes") \/
  (exists kubeconfig client nodes,
     getKubeConfigPath thread structVal = Ok kubeconfig /\
     New kubeconfig = Ok client /\
     getNodes client (Names (generateSearchParams structVal))
       (Labels (generateSearchParams structVal)) = Ok nodes /\
     (forall sshcfg, Local thread identifiers.sshCfg <> Some (VStruct sshcfg)) /\
     err = MissingDefaultError).
Proof.
  destruct (getKubeConfigPath thread structVal) as [kubeconfig|e1] eqn:Hcfg.
  2:{ unfold newKubeNodesProvider. rewrite Hcfg. simpl. split.
      - intros [= <-]. left. by exists e1.
      - intros [(e & [= <-] & ->)|[(? & ? & [=] & _)|[(? & ? & ? & [=] & _)
                 |(? & ? & ? & [=] & _)]]]. done. }
  destruct (New kubeconfig) as [client|e2] eqn:Hnew.
  2:{ unfold newKubeNodesProvider. rewrite Hcfg. simpl. rewrite Hnew. simpl.
      split.
      - intros [= <-]. right. left. by exists kubeconfig, e2.
      - intros [(? & [=] & _)|[(kc & e & [= <-] & Hnew' & ->)
                 |[(kc & ? & ? & [= <-] & Hnew' & _)
                 |(kc & ? & ? & [= <-] & Hnew' & _)]]]; congruence. }
  destruct (getNodes client (Names (generateSearchParams structVal))
              (Labels (generateSearchParams structVal)))
    as [nodes|e3] eqn:Hnodes.
  2:{ unfold newKubeNodesProvider. rewrite Hcfg. simpl. rewrite Hnew. simpl.
      rewrite Hnodes. simpl. split.
      - intros [= <-]. right. right. left. by exists kubeconfig, client, e3.
      - intros [(? & [=] & _)|[(kc & e & [= <-] & Hnew' & _)
                 |[(kc & c & e & [= <-] & Hnew' & Hnodes' & ->)
                 |(kc & c & ns & [= <-] & Hnew' & Hnodes' & _)]]]; congruence. }
  rewrite (newKubeNodesProvider_fetched _ _ _ _ _ Hcfg Hnew Hnodes). split.
  - intros Herr. right. right. right. exists kubeconfig, client, nodes.
    destruct (Local thread identifiers.sshCfg) as [[| | | |sshcfg]|];
      try discriminate Herr; injection Herr as <-; repeat split; done.
  - intros [(? & [=] & _)|[(kc & e & [= <-] & Hnew' & _)
             |[(kc & c & e & [= <-] & Hnew' & Hnodes' & _)
             |(kc & c & ns & _ & _ & _ & Hnone & ->)]]]; try congruence.
    destruct (Local thread identifiers.sshCfg) as [[| | | |sshcfg]|];
      try done.
    by destruct (Hnone sshcfg).
Qed.

(** X7: the struct of a successful resolution has the four fields [kind],
    [transport], [hosts] and [ssh_config] and no other: no argument of the
    call, whatever its key, is carried over. *)
Theorem provider_fields (thread : Thread) (structVal cfg : Struct) :
  newKubeNodesProvider thread structVal = Ok cfg ->
  dom cfg = ({[ "kind"; "transport"; "hosts"; "ssh_config" ]} : gset string).
Proof.
  intros (_ & _ & nodes & sshcfg & _ & _ & _ & _ & ->)%newKubeNodesProvider_Ok_inv.
  unfold providerStruct, identifiers.sshCfg.
  rewrite !dom_insert_L, dom_empty_L. set_solver.
Qed.

(** X8: from the search results to the hosts, both ways.  In a successful
    resolution the search succeeded and [hosts] has one entry per item of its
    results, in item order, each the internal address of the node its item
    decodes to.  And when the kubeconfig is found, the client is built, the
    search succeeds, every item decodes and the thread holds a default
    connection configuration, the resolution succeeds with such a [hosts];
    so a search without items succeeds with the empty list. *)
Theorem hosts_follow_items (thread : Thread) (structVal : Struct) :
  (forall cfg,
     newKubeNodesProvider thread structVal = Ok cfg ->
     exists kubeconfig client nodeResults hosts,
       getKubeConfigPath thread structVal = Ok kubeconfig /\
       New kubeconfig = Ok client /\
       Search client "core" "nodes" "" ""
         (Names (generateSearchParams structVal))
         (Labels (generateSearchParams structVal)) "" = Ok nodeResults /\
       cfg !! "hosts" = Some (VList hosts) /\
       Forall2 hostOf (allItems nodeResults) hosts) /\
  (forall kubeconfig client nodeResults sshcfg,
     getKubeConfigPath thread structVal = Ok kubeconfig ->
     New kubeconfig = Ok client ->
     Search client "core" "nodes" "" ""
       (Names (generateSearchParams structVal))
       (Labels (generateSearchParams structVal)) "" = Ok nodeResults ->
     Local thread identifiers.sshCfg = Some (VStruct sshcfg) ->
     Forall decodes (allItems nodeResults) ->
     exists cfg hosts,
       newKubeNodesProvider thread structVal = Ok cfg /\
       cfg !! "hosts" = Some (VList hosts) /\
       Forall2 hostOf (allItems nodeResults) hosts /\
       (allItems nodeResults = [] -> hosts = [])).
Proof.
  split.
  - intros cfg
      (kubeconfig & client & nodes & sshcfg & Hcfg & Hnew & Hnodes & _ & ->)
      %newKubeNodesProvider_Ok_inv.
    unfold getNodes in Hnodes.
    destruct (Search client "core" "nodes" "" ""
                (Names (generateSearchParams structVal))
                (Labels (generateSearchParams structVal)) "")
      as [nodeResults|e] eqn:Hsearch; [|done].
    simpl in Hnodes. apply collate_extends in Hnodes as (decoded & -> & Hdec).
    exists kubeconfig, client, nodeResults,
      ((fun node => VString (getNodeInternalIP node)) <$> decoded).
    repeat split; try done.
    apply Forall2_fmap_r.
    eapply Forall2_impl; [exact Hdec|].
    intros item node Hitem. by exists node.
  - intros kubeconfig client nodeResults sshcfg Hcfg Hnew Hsearch Hloc Hall.
    destruct (decoded_exists _ Hall) as [decoded Hdec].
    assert (Hnodes : getNodes client (Names (generateSearchParams structVal))
                       (Labels (generateSearchParams structVal)) = Ok decoded).
    { unfold getNodes. rewrite Hsearch. simpl.
      by rewrite (collate_decoded _ decoded). }
    exists (providerStruct decoded sshcfg),
      ((fun node => VString (getNodeInternalIP node)) <$> decoded).
    rewrite (newKubeNodesProvider_fetched _ _ _ _ _ Hcfg Hnew Hnodes), Hloc.
    repeat split; try done.
    + apply Forall2_fmap_r.
      eapply Forall2_impl; [exact Hdec|].
      intros item node Hitem. by exists node.
    + intros Hempty. rewrite Hempty in Hdec.
      by apply Forall2_nil_inv_l in Hdec as ->.
Qed.

(** X9: what a resolution reads.  Two calls, on any two threads and with any
    two argument structs, return the same result as soon as the kubeconfig
    lookup answers alike, the search parameters render alike and the two
    threads hold the same value under the key of the connection
    configuration.  Other arguments, the [ssh_config] argument among them,
    and other locals have no effect of their own. *)
Theorem resolution_reads (thread1 thread2 : Thread)
    (structVal1 structVal2 : Struct) :
  getKubeConfigPath thread1 structVal1 = getKubeConfigPath thread2 structVal2 ->
  Names (generateSearchParams structVal1)
    = Names (generateSearchParams structVal2) ->
  Labels (generateSearchParams structVal1)
    = Labels (generateSearchParams structVal2) ->
  Local thread1 identifiers.sshCfg = Local thread2 identifiers.sshCfg ->
  newKubeNodesProvider thread1 structVal1
    = newKubeNodesProvider thread2 structVal2.
Proof.
  intros Hcfg Hnames Hlabels Hloc. unfold newKubeNodesProvider.
  rewrite Hcfg, Hnames, Hlabels.
  destruct (getKubeConfigPath thread2 structVal2) as [kubeconfig|e]; [|done].
  simpl. destruct (New kubeconfig) as [client|e]; [|done].
  simpl.
  destruct (getNodes client (Names (generateSearchParams structVal2))
              (Labels (generateSearchParams structVal2))) as [nodes|e]; [|done].
  simpl. rewrite !fresh_dict_has_no_sshCfg, Hloc. done.
Qed.

(** X10: the built-in fails with the error of [kwargsToStruct], as it is,
    when the keyword arguments do not make a struct; when it succeeds the
    keyword arguments made a struct, the thread holds a default connection
    configuration, and the result is the struct of the four fields with that
    default. *)
Theorem KubeNodesProviderFn_result (thread : Thread) (args : Tuple)
    (kwargs : list Tuple) :
  (forall err, kwargsToStruct kwargs = Err err ->
     KubeNodesProviderFn thread args kwargs = Err err) /\
  (forall cfg, KubeNodesProviderFn thread args kwargs = Ok cfg ->
     exists structVal nodes sshcfg,
       kwargsToStruct kwargs = Ok structVal /\
       newKubeNodesProvider thread structVal = Ok cfg /\
       Local thread identifiers.sshCfg = Some (VStruct sshcfg) /\
       cfg = providerStruct nodes sshcfg).
Proof.
  unfold KubeNodesProviderFn. split.
  - intros err ->. done.
  - intros cfg.
    destruct (kwargsToStruct kwargs) as [structVal|e]; [|done].
    simpl. intros H.
    destruct (newKubeNodesProvider_Ok_inv _ _ _ H)
      as (_ & _ & nodes & sshcfg & _ & _ & _ & Hloc & ->).
    by exists structVal, nodes, sshcfg.
Qed.

End ComposerMore.

(** ** The argument normalizer, continued *)

(** [generateSearchParams] is the body applied to the constructor of the
    model. *)
Lemma generateSearchParams_With (structVal : Struct) :
  generateSearchParams structVal
  = generateSearchParamsWith NewSearchParams structVal.
Proof. reflexivity. Qed.

(** X11: whatever [k8s.NewSearchParams] is, [generateSearchParams] hands it
    the argument struct with [names] set to the value of [nodes] when
    [nodes] is present, and the argument struct itself otherwise.  Every
    other key is handed over as given, [nodes] itself included: the alias is
    copied, not removed, and normalizing again changes nothing. *)
Theorem generateSearchParams_normalized (structVal : Struct) :
  (forall (A : Type) (newSearchParams : Struct -> A),
     generateSearchParamsWith newSearchParams structVal
     = newSearchParams (normalized structVal)) /\
  generateSearchParamsWith id structVal = normalized structVal /\
  (forall key, key <> "names" ->
     generateSearchParamsWith id structVal !! key = structVal !! key) /\
  (forall v, structVal !! "nodes" = Some v ->
     generateSearchParamsWith id structVal !! "names" = Some v /\
     generateSearchParamsWith id structVal !! "nodes" = Some v) /\
  generateSearchParamsWith id (generateSearchParamsWith id structVal)
    = generateSearchParamsWith id structVal.
Proof.
  assert (Hbody : forall (A : Type) (f : Struct -> A) (s : Struct),
            generateSearchParamsWith f s = f (normalized s)).
  { intros A f s. unfold generateSearchParamsWith, normalized, Attr,
      FromStringDict.
    destruct (s !! "nodes") as [v|] eqn:Hnodes; [|done].
    by rewrite ToStringDict_empty, Hnodes. }
  split; [intros A f; apply Hbody|].
  rewrite !Hbody. unfold id, normalized.
  destruct (structVal !! "nodes") as [v|] eqn:Hnodes.
  - split; [done|].
    split; [intros key Hkey; by rewrite lookup_insert_ne|].
    split.
    + intros w [= <-]. split; [apply lookup_insert_eq|].
      by rewrite lookup_insert_ne.
    + rewrite lookup_insert_ne, Hnodes by done. apply insert_insert_eq.
  - split; [done|]. split; [done|]. split; [done|]. by rewrite Hnodes.
Qed.

(** X12: a collection of strings under [nodes] gives exactly its members as
    the effective names, in order, whether [names] is absent or holds
    anything else. *)
Theorem nodes_alone_names (structVal : Struct) (l : list string) :
  structVal !! "nodes" = Some (VList (VString <$> l)) ->
  names (generateSearchParams structVal) = l.
Proof.
  intros Hnodes.
  rewrite (generateSearchParams_nodes _ (VList (VString <$> l))) by done.
  unfold NewSearchParams. simpl names.
  rewrite lookup_insert_eq. simpl from_option.
  apply strings_of_collection.
Qed.

Lemma nodes_alone_names_witness :
  names (generateSearchParams {[ "nodes" := VList [VString "node-b"; VString "node-d"] ]})
  = ["node-b"; "node-d"].
Proof.
  apply (nodes_alone_names _ ["node-b"; "node-d"]).
  vm_compute. reflexivity.
Defined.

(** ** The default global configuration, continued *)

Section CrashdConfigMore.
Context `{K : Collaborators}.

Lemma addDefaultCrashdConf_unfold (thread : Thread) :
  addDefaultCrashdConf thread =
    match crashdConfigFn thread [] (Some defaultArgs) with
    | (Err err, thread) => (Some err, thread)
    | (Ok _, thread) => (None, thread)
    end.
Proof. reflexivity. Qed.

(** X13: what a call of [crashdConfigFn] can and cannot do.  It changes no
    local other than the default configuration, whether it succeeds or
    fails; it fails only when the keyword arguments are not nil and
    [tupleSliceToDict] fails on them, with that error as it is and the thread
    exactly as it was; and what it returns on success is the dictionary
    built, never another value. *)
Theorem crashdConfigFn_frame (thread : Thread) (args : Tuple)
    (kwargs : option (list Tuple)) :
  (forall key, key <> identifiers.crashdCfg ->
     Local (snd (crashdConfigFn thread args kwargs)) key = Local thread key) /\
  (forall err, fst (crashdConfigFn thread args kwargs) = Err err ->
     snd (crashdConfigFn thread args kwargs) = thread /\
     exists kw, kwargs = Some kw /\ tupleSliceToDict kw = Err err) /\
  (forall v, fst (crashdConfigFn thread args kwargs) = Ok v ->
     exists dictionary, built kwargs dictionary /\ v = VDict dictionary).
Proof.
  unfold crashdConfigFn.
  destruct kwargs as [kw|]; [destruct (tupleSliceToDict kw) as [dict|e] eqn:Hkw|];
    simpl.
  - split; [|split; [done|]].
    + intros key Hkey. unfold Local, SetLocal. simpl.
      by rewrite lookup_insert_ne.
    + intros v [= <-]. exists (Some dict). split; [by constructor|done].
  - split; [done|]. split; [|done].
    intros err [= <-]. split; [done|]. by exists kw.
  - split; [|split; [done|]].
    + intros key Hkey. unfold Local, SetLocal. simpl.
      by rewrite lookup_insert_ne.
    + intros v [= <-]. exists None. split; [constructor|done].
Qed.

(** X14: [addDefaultCrashdConf] passes the four pairs gid, uid, workdir and
    output_path, in this order.  When [tupleSliceToDict] makes a dictionary
    of them no error is returned and that dictionary, never the nil one, is
    the default configuration of the thread; when it fails its error is
    returned as it is and the thread is exactly as it was. *)
Theorem addDefaultCrashdConf_result (thread : Thread) :
  (forall dict, tupleSliceToDict defaultArgs = Ok dict ->
     addDefaultCrashdConf thread
       = (None, SetLocal thread identifiers.crashdCfg (VDict (Some dict))) /\
     Local (snd (addDefaultCrashdConf thread)) identifiers.crashdCfg
       = Some (VDict (Some dict))) /\
  (forall err, tupleSliceToDict defaultArgs = Err err ->
     addDefaultCrashdConf thread = (Some err, thread)).
Proof.
  rewrite addDefaultCrashdConf_unfold. unfold crashdConfigFn. split.
  - intros dict ->. simpl. split; [done|]. apply lookup_insert_eq.
  - intros err ->. done.
Qed.

(** X15: the order of writers.  A [crashd_config] call of the script made
    after the start-up defaults leaves the dictionary of the script in the
    thread, whether the defaults were installed or not; start-up defaults
    installed after such a call replace its dictionary. *)
Theorem script_config_and_defaults (thread : Thread) (args : Tuple)
    (kwargs : option (list Tuple)) (dictionary : option Dict) :
  built kwargs dictionary ->
  Local (snd (crashdConfigFn (snd (addDefaultCrashdConf thread)) args kwargs))
    identifiers.crashdCfg = Some (VDict dictionary) /\
  (forall dict, tupleSliceToDict defaultArgs = Ok dict ->
     Local (snd (addDefaultCrashdConf (snd (crashdConfigFn thread args kwargs))))
       identifiers.crashdCfg = Some (VDict (Some dict))).
Proof.
  intros Hbuilt. split.
  - unfold crashdConfigFn at 1.
    destruct Hbuilt as [|kw dict Hdict]; [|rewrite Hdict]; simpl;
      apply lookup_insert_eq.
  - intros dict Hdict. rewrite addDefaultCrashdConf_unfold.
    unfold crashdConfigFn at 1. rewrite Hdict. simpl. apply lookup_insert_eq.
Qed.

(** X16: the default global configuration and the default connection
    configuration do not interfere: a [crashd_config] call leaves the value
    under the key of the connection configuration as it was, so a
    resolution made after the call ends as one made before it whenever the
    kubeconfig lookup answers alike on the two threads. *)
Theorem crashdConfigFn_keeps_resolution (thread : Thread) (args : Tuple)
    (kwargs : option (list Tuple)) (structVal : Struct) :
  getKubeConfigPath (snd (crashdConfigFn thread args kwargs)) structVal
    = getKubeConfigPath thread structVal ->
  Local (snd (crashdConfigFn thread args kwargs)) identifiers.sshCfg
    = Local thread identifiers.sshCfg /\
  newKubeNodesProvider (snd (crashdConfigFn thread args kwargs)) structVal
    = newKubeNodesProvider thread structVal.
Proof.
  intros Hcfg.
  assert (Hloc : Local (snd (crashdConfigFn thread args kwargs)) identifiers.sshCfg
                 = Local thread identifiers.sshCfg).
  { unfold crashdConfigFn.
    destruct kwargs as [kw|]; [destruct (tupleSliceToDict kw)|]; simpl;
      try done; unfold Local, SetLocal; simpl; by rewrite lookup_insert_ne. }
  split; [done|].
  unfold newKubeNodesProvider. rewrite Hcfg.
  destruct (getKubeConfigPath thread structVal) as [kubeconfig|e]; [|done].
  simpl. destruct (New kubeconfig) as [client|e]; [|done].
  simpl.
  destruct (getNodes client (Names (generateSearchParams structVal))
              (Labels (generateSearchParams structVal))) as [nodes|e]; [|done].
  simpl. rewrite !fresh_dict_has_no_sshCfg, Hloc. done.
Qed.

End CrashdConfigMore.

(** ** The further properties on concrete clusters *)

Section MoreScenarios.
Import Double.

Lemma provider_fields_witness :
  dom (providerStruct [nodeA; nodeB] sshRoot)
  = ({[ "kind"; "transport"; "hosts"; "ssh_config" ]} : gset string).
Proof.
  apply (@provider_fields (healthy [RawNode nodeA] [RawNode nodeB])
           threadWithDefault
           (<["kube_config" := VString "/home/op/.kube/config"]>
              {[ "names" := VList [VString "node-a"] ]})).
  vm_compute. reflexivity.
Defined.

Lemma hosts_follow_items_witness :
  (exists hosts,
     providerStruct [nodeB; nodeC] sshRoot !! "hosts" = Some (VList hosts) /\
     Forall2 (@hostOf (healthy [RawNode nodeB] [RawNode nodeC]))
       [ {| Object := RawNode nodeB |}; {| Object := RawNode nodeC |} ] hosts) /\
  (exists cfg,
     @newKubeNodesProvider (healthy [] []) threadWithDefault ∅ = Ok cfg /\
     cfg !! "hosts" = Some (VList [])).
Proof.
  split.
  - destruct (proj1 (@hosts_follow_items (healthy [RawNode nodeB] [RawNode nodeC])
                       threadWithDefault ∅)
                (providerStruct [nodeB; nodeC] sshRoot))
      as (kubeconfig & client & nodeResults & hosts & _ & _ & Hsearch & Hhosts
          & Hall).
    + vm_compute. reflexivity.
    + exists hosts. split; [exact Hhosts|].
      injection Hsearch as <-. exact Hall.
  - destruct (proj2 (@hosts_follow_items (healthy [] []) threadWithDefault ∅)
                "/etc/kube/config" tt [oneResult []; oneResult []] sshRoot)
      as (cfg & hosts & Hrun & Hhosts & _ & Hempty);
      try (vm_compute; reflexivity).
    + constructor.
    + exists cfg. split; [exact Hrun|].
      rewrite Hhosts, (Hempty eq_refl). reflexivity.
Defined.

Lemma resolution_reads_witness :
  @newKubeNodesProvider (healthy [RawNode nodeA] []) threadWithDefault
    {[ "names" := VList [VString "node-a"] ]}
  = @newKubeNodesProvider (healthy [RawNode nodeA] [])
      (SetLocal threadWithDefault "crashd_config" (VDict None))
      (<["ssh_config" := VStruct sshAlice]>
         {[ "names" := VList [VString "node-a"] ]}).
Proof.
  apply resolution_reads; vm_compute; reflexivity.
Defined.

Lemma script_config_and_defaults_witness :
  Local (snd (@crashdConfigFn (healthy [] [])
                (snd (@addDefaultCrashdConf (healthy [] []) emptyThread))
                [] None))
    identifiers.crashdCfg = Some (VDict None).
Proof.
  exact (proj1 (@script_config_and_defaults (healthy [] []) emptyThread [] None
                  None (@built_nil (healthy [] [])))).
Defined.

Lemma crashdConfigFn_keeps_resolution_witness :
  @newKubeNodesProvider (healthy [RawNode nodeC] [])
    (snd (@crashdConfigFn (healthy [RawNode nodeC] []) threadWithDefault []
            (Some [[VString "workdir"; VString "/var/tmp"]])))
    {[ "names" := VList [VString "node-c"] ]}
  = @newKubeNodesProvider (healthy [RawNode nodeC] []) threadWithDefault
      {[ "names" := VList [VString "node-c"] ]}.
Proof.
  refine (proj2 (@crashdConfigFn_keeps_resolution (healthy [RawNode nodeC] [])
                   threadWithDefault []
                   (Some [[VString "workdir"; VString "/var/tmp"]])
                   {[ "names" := VList [VString "node-c"] ]} _)).
  vm_compute. reflexivity.
Defined.

(** The first of two undecodable items decides the error. *)
Example getNodes_first_failure :
  @getNodes (healthy [RawNode nodeA; RawOther "Pod"] [RawOther "Service"])
    tt "" ""
  = Err (Errorf "cannot convert Pod to Node").
Proof. reflexivity. Qed.

(** A search without items: the resolution succeeds with no host. *)
Example no_items_no_hosts :
  @newKubeNodesProvider (healthy [] []) threadWithDefault ∅
  = Ok (providerStruct [] sshRoot).
Proof. reflexivity. Qed.

(** The start-up defaults of the double. *)
Example addDefaultCrashdConf_double :
  @addDefaultCrashdConf (healthy [] []) emptyThread
  = (None,
     SetLocal emptyThread identifiers.crashdCfg
       (VDict (Some [ (VString "gid", VString "0");
                      (VString "uid", VString "0");
                      (VString "workdir", VString "/tmp/crashd");
                      (VString "output_path", VString "/tmp/crashd.tar.gz") ]))).
Proof. reflexivity. Qed.

End MoreScenarios.
